(** * score_converter: decimal grades to GPA

    A shallow embedding of the grade-conversion core of
    [score_converter.py] (class [GPAConverter]): the class attribute
    [scale], the static method [_gpa], the two averaging methods
    [get_iaa] and [get_gpa], the frame computed by
    [export_translated_transcript], and the frame [pd.DataFrame(subjects)]
    that [get_grade_records] stores as the transcript.

    Modelling choices.
    - Python floats (and the float64 columns of a pandas frame) are
      IEEE-754 binary64 numbers: they are Rocq's primitive [float], whose
      operations and comparisons are the binary64 ones.  An integer
      literal stored in a float64 column ([9], [2], [0]) is the float of
      the same value.
    - A pandas frame that has its columns is the list of its rows, in
      order; a column is the list of the rows' fields; a boolean mask
      selects rows with [List.filter]; iterating a column yields its
      floats in order.  The frame built from an empty list of records has
      no columns: it is the separate case [NoColumns] of [frame], on
      which reading a column raises [AttributeError].
    - A raised exception is the left injection of [result], tagged with
      the Python class that is raised.
    - [print] is modelled by returning the printed line.
    - The methods take the transcript as an argument; the branch that
      scrapes it when [transcript is None] is input/output and is not
      modelled. *)

From Stdlib Require Import Floats ZArith Lia Bool List String Ascii DecimalString Sorted.
From stdpp Require Import base gmap.
Import ListNotations.
Set Warnings "-inexact-float".

(** ** Exceptions *)

(** The Python exception classes the modelled code can raise. *)
Inductive exception : Set :=
| KeyError            (* [dict.__getitem__] on a missing key *)
| ValueError          (* [max] of an empty iterable *)
| ZeroDivisionError.  (* [/] with a zero divisor *)

(** [type(e).__name__] *)
Definition class_name (e : exception) : string :=
  match e with
  | KeyError => "KeyError"
  | ValueError => "ValueError"
  | ZeroDivisionError => "ZeroDivisionError"
  end.

Definition result (A : Type) : Type := (exception + A)%type.

Definition ret {A : Type} (a : A) : result A := inr a.
Definition raise {A : Type} (e : exception) : result A := inl e.

Definition bind {A B : Type} (c : result A) (k : A -> result B) : result B :=
  match c with
  | inl e => inl e
  | inr a => k a
  end.

Notation "'let*' x ':=' c 'in' k" := (bind c (fun x => k))
  (at level 10, x name, c at level 100, k at level 200).

(** ** Python and pandas primitives *)

(** The loop of the builtin [max]: [item] replaces [maxitem] when
    [item > maxitem]. *)
Fixpoint max_from (maxitem : float) (it : list float) : float :=
  match it with
  | [] => maxitem
  | item :: it' => max_from (if (maxitem <? item)%float then item else maxitem) it'
  end.

(** [max(it)]: [ValueError] on an empty iterable. *)
Definition py_max (it : list float) : result float :=
  match it with
  | [] => raise ValueError
  | item :: it' => ret (max_from item it')
  end.

(** [sum(it)]: the accumulation loop, one binary64 addition per item,
    left to right from the start value [0].  The integer [0] returned for
    an empty iterable is represented by the float [0]; both are equal to
    zero and both make [/] raise. *)
Definition py_sum (it : list float) : float :=
  List.fold_left PrimFloat.add it 0%float.

(** [a / b] on numbers: [ZeroDivisionError] when [b == 0]. *)
Definition py_div (a b : float) : result float :=
  if (b =? 0)%float then raise ZeroDivisionError else ret (a / b)%float.

(** [a * b] on two columns of one frame: the elementwise product. *)
Fixpoint series_mul (a b : list float) : list float :=
  match a, b with
  | x :: a', y :: b' => (x * y)%float :: series_mul a' b'
  | _, _ => []
  end.

(** [s.apply(f)]: calls [f] on each element in order; the first exception
    propagates. *)
Fixpoint series_apply (f : float -> result float) (s : list float)
  : result (list float) :=
  match s with
  | [] => ret []
  | x :: s' =>
      let* y := f x in
      let* ys := series_apply f s' in
      ret (y :: ys)
  end.

(** *** ['%.2f' % x]

    Fixed notation with two decimals of the exact binary value, rounded
    to nearest with ties to even. *)

Definition round_half_even (n d : Z) : Z :=
  let q := (n / d)%Z in
  match (2 * (n mod d) ?= d)%Z with
  | Lt => q
  | Gt => (q + 1)%Z
  | Eq => if Z.even q then q else (q + 1)%Z
  end.

(** The value [m * 2^e] in hundredths, rounded. *)
Definition hundredths (m : positive) (e : Z) : Z :=
  if (0 <=? e)%Z then (Z.pos m * 2 ^ e * 100)%Z
  else round_half_even (Z.pos m * 100) (2 ^ (- e)).

Definition digits (n : Z) : string :=
  NilZero.string_of_uint (N.to_uint (Z.to_N n)).

Definition two_digits (n : Z) : string :=
  if (n <? 10)%Z then String.append "0" (digits n) else digits n.

Definition sign (s : bool) : string :=
  if s then "-"%string else ""%string.

Definition format_2f (x : float) : string :=
  match Prim2SF x with
  | S754_nan => "nan"
  | S754_infinity s => sign s ++ "inf"
  | S754_zero s => sign s ++ "0.00"
  | S754_finite s m e =>
      let h := hundredths m e in
      sign s ++ digits (h / 100) ++ "." ++ two_digits (h mod 100)
  end%string.

(** ** The scale tables *)

(** One row of a scale: [{'decimal': d, 'grade': v}]. *)
Record entry : Set := Entry { decimal : float; grade : float }.

Module Tables.
Local Open Scope float_scope.

Definition scale_1 : list entry :=
  [ Entry 9 4.0;
    Entry 7 3.0;
    Entry 5 2;
    Entry 3 1;
    Entry 0 0 ].

Definition scale_2 : list entry :=
  [ Entry 9.7 4.0;
    Entry 9.6 3.9;
    Entry 9.5 3.8;
    Entry 9.3 3.7;
    Entry 9.1 3.6;
    Entry 9.0 3.5;
    Entry 8.8 3.4;
    Entry 8.7 3.3;
    Entry 8.5 3.2;
    Entry 8.4 3.1;
    Entry 8.2 3.0;
    Entry 8.0 2.9;
    Entry 7.9 2.8;
    Entry 7.8 2.7;
    Entry 7.7 2.6;
    Entry 7.6 2.5;
    Entry 7.5 2.4;
    Entry 7.4 2.3;
    Entry 7.3 2.2;
    Entry 7.2 2.1;
    Entry 7.1 2.0;
    Entry 7.0 1.9;
    Entry 6.9 1.8;
    Entry 6.8 1.7;
    Entry 6.7 1.6;
    Entry 6.6 1.5;
    Entry 6.5 1.4;
    Entry 6.4 1.3;
    Entry 6.2 1.2;
    Entry 6.1 1.1;
    Entry 6.0 1.0;
    Entry 0 0 ].

Definition scale_3 : list entry :=
  [ Entry 9.3 4.0;
    Entry 9.0 3.7;
    Entry 8.7 3.3;
    Entry 8.3 3.0;
    Entry 8.0 2.7;
    Entry 7.7 2.3;
    Entry 7.3 2.0;
    Entry 7.0 1.7;
    Entry 6.7 1.3;
    Entry 6.5 1.0;
    Entry 0 0.0 ].

End Tables.
Export Tables.

(** [GPAConverter.scale]: the dict from scale id to table. *)
Definition scale : gmap Z (list entry) :=
  {[ 1%Z := scale_1; 2%Z := scale_2; 3%Z := scale_3 ]}.

(** [GPAConverter.scale[scale_id]] *)
Definition scale_getitem (scale_id : Z) : result (list entry) :=
  match scale !! scale_id with
  | Some conversion => ret conversion
  | None => raise KeyError
  end.

(** ** The transcript *)

Module Transcript.
(** One row of the transcript frame built by [get_grade_records]. *)
Record row : Set := Row {
  code : string;
  subject : string;
  credits : float;
  grade : float
}.
End Transcript.

(** The rows of a transcript frame that has the four columns.  The empty
    list is such a frame without rows, which only a caller can build and
    pass as [transcript]; the frame [get_grade_records] builds from zero
    records has no columns and is [NoColumns] of [frame] below. *)
Definition transcript : Set := list Transcript.row.

(** ** The converter and the two averages *)

(** [max(conversion.loc[conversion.decimal <= grade, 'grade'])] *)
Definition _gpa (g : float) (conversion : list entry) : result float :=
  py_max (List.map grade
            (List.filter (fun e => (decimal e <=? g)%float) conversion)).

(** [sum(transcript.credits * transcript.grade) / sum(transcript.credits)] *)
Definition iaa_value (t : transcript) : result float :=
  py_div (py_sum (series_mul (List.map Transcript.credits t)
                             (List.map Transcript.grade t)))
         (py_sum (List.map Transcript.credits t)).

(** [get_iaa]: prints ['IAA: %.2f' % value]. *)
Definition get_iaa (t : transcript) : result string :=
  let* v := iaa_value t in
  ret (String.append "IAA: " (format_2f v)).

(** The number that [get_gpa] formats:
    [sum(transcript.credits * transcript.loc[:, 'grade'].apply(self._gpa, args=(conversion,)))
       / sum(transcript.credits)],
    after [conversion = pd.DataFrame(GPAConverter.scale[scale_id])]. *)
Definition gpa_value (scale_id : Z) (t : transcript) : result float :=
  let* conversion := scale_getitem scale_id in
  let* gpas := series_apply (fun g => _gpa g conversion)
                            (List.map Transcript.grade t) in
  py_div (py_sum (series_mul (List.map Transcript.credits t) gpas))
         (py_sum (List.map Transcript.credits t)).

(** [get_gpa]: prints ['GPA: %.2f' % value]. *)
Definition get_gpa (scale_id : Z) (t : transcript) : result string :=
  let* v := gpa_value scale_id t in
  ret (String.append "GPA: " (format_2f v)).

(** ** Vocabulary of the specification *)

Definition fle (a b : float) : Prop := (a <=? b)%float = true.
Definition flt (a b : float) : Prop := (a <? b)%float = true.

(** [e] is the entry of [conversion] with the greatest threshold that is
    less than or equal to [g]. *)
Definition best_entry (g : float) (conversion : list entry) (e : entry) : Prop :=
  In e conversion /\
  fle (decimal e) g /\
  forall e', In e' conversion -> fle (decimal e') g -> fle (decimal e') (decimal e).

(** Each element is strictly greater than every later one. *)
Definition strictly_decreasing (l : list float) : Prop :=
  StronglySorted (fun a b => flt b a) l.

(** Each element is at least every later one. *)
Definition non_increasing (l : list float) : Prop :=
  StronglySorted (fun a b => fle b a) l.

(** The first entry, in listed order, whose threshold is at most [g]. *)
Definition floor_entry (g : float) (conversion : list entry) : option entry :=
  List.find (fun e => (decimal e <=? g)%float) conversion.

(** The shape shared by the registered tables: thresholds strictly
    decreasing and non-negative, down to a threshold of zero; values
    non-increasing and numbers. *)
Record scale_ok (t : list entry) : Prop := ScaleOk {
  thresholds_decreasing : strictly_decreasing (List.map decimal t);
  grades_non_increasing : non_increasing (List.map grade t);
  grades_numbers : Forall (fun e => fle (grade e) (grade e)) t;
  thresholds_non_negative : Forall (fun e => fle 0 (decimal e)) t;
  threshold_zero : Exists (fun e => decimal e = 0%float) t
}.

(** Decision procedures for the above, run on the concrete tables. *)
Fixpoint pairwiseb (R : float -> float -> bool) (l : list float) : bool :=
  match l with
  | [] => true
  | a :: l' => forallb (R a) l' && pairwiseb R l'
  end.

Definition scale_okb (t : list entry) : bool :=
  pairwiseb (fun a b => (b <? a)%float) (List.map decimal t)
  && pairwiseb (fun a b => (b <=? a)%float) (List.map grade t)
  && forallb (fun e => (grade e <=? grade e)%float) t
  && forallb (fun e => (0 <=? decimal e)%float) t
  && existsb (fun e => PrimFloat.Leibniz.eqb (decimal e) 0%float) t.

(** The three registered tables start at a threshold of at most 10 with
    the value 4.0, which no other row exceeds. *)
Definition top_okb (t : list entry) : bool :=
  match t with
  | [] => false
  | a :: _ =>
      (decimal a <=? 10)%float
      && PrimFloat.Leibniz.eqb (grade a) 4%float
      && forallb (fun e => (grade e <=? 4)%float) t
  end.

(** The credit-weighted mean [Σ(w × v) / Σ(w)] of a list of
    (weight, value) pairs, both sums accumulated in binary64 in listed
    order. *)
Definition weighted_mean (wv : list (float * float)) : float :=
  (List.fold_left (fun acc p => acc + fst p * snd p) wv 0
   / List.fold_left (fun acc p => acc + fst p) wv 0)%float.

(** The transcript of the worked example: 3 credits at grade 9.5 and
    1 credit at grade 5.0. *)
Definition example_transcript : transcript :=
  [ Transcript.Row "A" "first" 3 9.5;
    Transcript.Row "B" "second" 1 5.0 ].


(** ** The exported transcript

    [export_translated_transcript] reads the translation sheet, adds the
    columns ['translated'] and ['gpa'] to a copy of the transcript, and
    writes the frame to a spreadsheet.  The sheet that is read is an
    argument, a frame of two string columns ['code'] and ['subjects'],
    and the frame that is written is the result. *)

(** The exceptions of the export: those of the converter, and the
    [IndexError] of [.iloc[0]] on an empty selection. *)
Inductive export_exception : Set :=
| Converter (e : exception)
| IndexError.

Definition export_result (A : Type) : Type := (export_exception + A)%type.

(** [s.iloc[0]] *)
Definition iloc_0 (s : list string) : export_result string :=
  match s with
  | [] => inl IndexError
  | x :: _ => inr x
  end.

(** [translated.loc[translated.code == i, 'subjects'].iloc[0]
       if i in list(translated.code) else ''] *)
Definition translation (translated : list (string * string)) (i : string)
  : export_result string :=
  if List.existsb (fun c => String.eqb i c) (List.map fst translated)
  then iloc_0 (List.map snd
                 (List.filter (fun r => String.eqb (fst r) i) translated))
  else inr ""%string.

(** [[... for i in transcript.code]] *)
Fixpoint translated_column (translated : list (string * string))
  (codes : list string) : export_result (list string) :=
  match codes with
  | [] => inr []
  | i :: codes' =>
      match translation translated i with
      | inl e => inl e
      | inr s =>
          match translated_column translated codes' with
          | inl e => inl e
          | inr ss => inr (s :: ss)
          end
      end
  end.

Module Exported.
(** One row of the exported frame, its columns in the order
    [['code', 'credits', 'grade', 'gpa', 'subject', 'translated']]. *)
Record row : Set := Row {
  code : string;
  credits : float;
  grade : float;
  gpa : float;
  subject : string;
  translated : string
}.
End Exported.

(** The transcript with the two new columns. *)
Fixpoint with_columns (t : transcript) (translated : list string)
  (gpa : list float) : list Exported.row :=
  match t, translated, gpa with
  | r :: t', s :: translated', v :: gpa' =>
      Exported.Row (Transcript.code r) (Transcript.credits r)
                 (Transcript.grade r) v (Transcript.subject r) s
      :: with_columns t' translated' gpa'
  | _, _, _ => []
  end.

Definition export_translated_transcript (scale_id : Z)
  (translated : list (string * string)) (t : transcript)
  : export_result (list Exported.row) :=
  match scale_getitem scale_id with
  | inl e => inl (Converter e)
  | inr conversion =>
      match translated_column translated (List.map Transcript.code t) with
      | inl e => inl e
      | inr column =>
          match series_apply (fun g => _gpa g conversion)
                             (List.map Transcript.grade t) with
          | inl e => inl (Converter e)
          | inr gpas => inr (with_columns t column gpas)
          end
      end
  end.

(** The description found for a code: that of the first row of the sheet
    with this code, the empty string when there is none. *)
Definition first_description (translated : list (string * string))
  (i : string) : string :=
  match List.find (fun r => String.eqb (fst r) i) translated with
  | Some r => snd r
  | None => ""%string
  end.

(** A grade the registered tables cannot convert: negative, or not a
    number. *)
Definition out_of_domain (g : float) : Prop := (0 <=? g)%float = false.

(** ** Frames with and without columns

    [pd.DataFrame(subjects)] has the four columns when [subjects] holds
    records and no column at all when [subjects] is empty. *)
Inductive frame : Set :=
| NoColumns
| Columns (t : transcript).


(** The exceptions of the methods on a frame: the [AttributeError] of
    reading a column that the frame does not have, and those above. *)
Inductive method_exception : Set :=
| AttributeError
| Raised (e : export_exception).

Definition method_result (A : Type) : Type := (method_exception + A)%type.

(** [transcript.credits], [transcript.code]: the first column that each
    method reads. *)
Definition columns (f : frame) : method_result transcript :=
  match f with
  | NoColumns => inl AttributeError
  | Columns t => inr t
  end.

Module Frame.

(** [get_iaa]: [transcript.credits] is read first. *)
Definition get_iaa (f : frame) : method_result string :=
  match columns f with
  | inl e => inl e
  | inr t =>
      match get_iaa t with
      | inl e => inl (Raised (Converter e))
      | inr line => inr line
      end
  end.

(** [get_gpa]: the subscript [GPAConverter.scale[scale_id]] comes first,
    then [transcript.credits] is read. *)
Definition get_gpa (scale_id : Z) (f : frame) : method_result string :=
  match scale_getitem scale_id with
  | inl e => inl (Raised (Converter e))
  | inr _ =>
      match columns f with
      | inl e => inl e
      | inr t =>
          match get_gpa scale_id t with
          | inl e => inl (Raised (Converter e))
          | inr line => inr line
          end
      end
  end.

(** [export_translated_transcript]: the subscript comes first, then
    [transcript.code] is read. *)
Definition export_translated_transcript (scale_id : Z)
  (translated : list (string * string)) (f : frame)
  : method_result (list Exported.row) :=
  match scale_getitem scale_id with
  | inl e => inl (Raised (Converter e))
  | inr _ =>
      match columns f with
      | inl e => inl e
      | inr t =>
          match export_translated_transcript scale_id translated t with
          | inl e => inl (Raised e)
          | inr rows => inr rows
          end
      end
  end.

End Frame.



(** ** The order of binary64 numbers *)

Module FloatOrder.

Ltac cmp_cases :=
  repeat match goal with
  | H : context [Z.compare ?a ?b] |- _ => destruct (Z.compare_spec a b)
  | |- context [Z.compare ?a ?b] => destruct (Z.compare_spec a b)
  | H : context [Pos.compare_cont Eq ?a ?b] |- _ =>
      change (Pos.compare_cont Eq a b) with (Pos.compare a b) in H;
      destruct (Pos.compare_spec a b)
  | |- context [Pos.compare_cont Eq ?a ?b] =>
      change (Pos.compare_cont Eq a b) with (Pos.compare a b);
      destruct (Pos.compare_spec a b)
  end.

Ltac sf_order :=
  intros;
  repeat match goal with x : spec_float |- _ => destruct x as [[]|[]| |[] ? ?] end;
  cbn in *; try discriminate; try reflexivity;
  cmp_cases; cbn in *; subst; try discriminate; try reflexivity; try lia.

Lemma SFleb_trans x y z :
  SFleb x y = true -> SFleb y z = true -> SFleb x z = true.
Proof. unfold SFleb. sf_order. Qed.

Lemma SFltb_leb x y : SFltb x y = true -> SFleb x y = true.
Proof. unfold SFltb, SFleb. sf_order. Qed.

Lemma SFleb_not_ltb x y : SFleb x y = true -> SFltb y x = false.
Proof. unfold SFltb, SFleb. sf_order. Qed.

Lemma SFleb_refl_l x y : SFleb x y = true -> SFleb x x = true.
Proof. unfold SFleb. sf_order. Qed.

Lemma SFleb_refl_r x y : SFleb x y = true -> SFleb y y = true.
Proof. unfold SFleb. sf_order. Qed.


Lemma fle_trans a b c : fle a b -> fle b c -> fle a c.
Proof. unfold fle. rewrite !leb_spec. apply SFleb_trans. Qed.

Lemma flt_fle a b : flt a b -> fle a b.
Proof. unfold flt, fle. rewrite ltb_spec, leb_spec. apply SFltb_leb. Qed.

Lemma fle_not_flt a b : fle a b -> (b <? a)%float = false.
Proof. unfold fle. rewrite ltb_spec, leb_spec. apply SFleb_not_ltb. Qed.

Lemma flt_not_fle a b : flt a b -> (b <=? a)%float = false.
Proof.
  intros H. destruct (b <=? a)%float eqn:E; [| reflexivity].
  apply fle_not_flt in E. unfold flt in H. congruence.
Qed.

Lemma fle_refl_l a b : fle a b -> fle a a.
Proof. unfold fle. rewrite !leb_spec. apply SFleb_refl_l. Qed.

Lemma fle_refl_r a b : fle a b -> fle b b.
Proof. unfold fle. rewrite !leb_spec. apply SFleb_refl_r. Qed.

Lemma SFltb_not_eqb x y : SFltb x y = true -> SFeqb y x = false.
Proof. unfold SFltb, SFeqb. sf_order. Qed.

Lemma flt_not_eqb a b : flt a b -> (b =? a)%float = false.
Proof. unfold flt. rewrite ltb_spec, FloatAxioms.eqb_spec. apply SFltb_not_eqb. Qed.


End FloatOrder.
Import FloatOrder.

(** ** Worked inputs *)

Example gpa_between_thresholds : _gpa 8 scale_1 = ret 3%float.
Proof. reflexivity. Qed.

Example gpa_not_a_number : _gpa nan scale_2 = raise ValueError.
Proof. reflexivity. Qed.

Example gpa_negative_zero : _gpa (-0) scale_3 = ret 0%float.
Proof. reflexivity. Qed.

Example iaa_single_record :
  get_iaa [Transcript.Row "A" "first" 1 8.0] = ret "IAA: 8.00"%string.
Proof. reflexivity. Qed.

Example gpa_unregistered_first :
  get_gpa 99 [Transcript.Row "A" "first" 0 (-1)] = raise KeyError.
Proof. reflexivity. Qed.

Example format_2f_rounds :
  List.map format_2f [2.675; 0.125; 0.375; 9.995; -0.001]%float
  = ["2.67"; "0.12"; "0.38"; "9.99"; "-0.00"]%string.
Proof. reflexivity. Qed.

(** ** The registered tables *)

Lemma pairwiseb_sound (R : float -> float -> bool) l :
  pairwiseb R l = true -> StronglySorted (fun a b => R a b = true) l.
Proof.
  induction l as [|a l IH]; cbn; intros H; constructor.
  - apply IH. apply andb_prop in H. tauto.
  - apply andb_prop in H. destruct H as [H _].
    apply List.Forall_forall. apply (proj1 (List.forallb_forall _ _) H).
Qed.

Lemma scale_okb_sound t : scale_okb t = true -> scale_ok t.
Proof.
  unfold scale_okb. rewrite !andb_true_iff.
  intros [[[[Hd Hg] Hn] Hp] Hz]. split.
  - exact (pairwiseb_sound _ _ Hd).
  - exact (pairwiseb_sound _ _ Hg).
  - apply List.Forall_forall. exact (proj1 (List.forallb_forall _ _) Hn).
  - apply List.Forall_forall. exact (proj1 (List.forallb_forall _ _) Hp).
  - apply List.Exists_exists. apply List.existsb_exists in Hz.
    destruct Hz as [e [He Hz]]. exists e. split; [exact He |].
    apply FloatAxioms.Leibniz.eqb_spec. exact Hz.
Qed.

Lemma scale_registered scale_id conversion :
  scale !! scale_id = Some conversion ->
  (scale_id = 1%Z /\ conversion = scale_1) \/
  (scale_id = 2%Z /\ conversion = scale_2) \/
  (scale_id = 3%Z /\ conversion = scale_3).
Proof.
  unfold scale. intros H.
  apply lookup_insert_Some in H. destruct H as [[<- <-]|[_ H]]; [tauto |].
  apply lookup_insert_Some in H. destruct H as [[<- <-]|[_ H]]; [tauto |].
  apply lookup_singleton_Some in H. destruct H as [<- <-]. tauto.
Qed.

Lemma scale_registered_ok scale_id conversion :
  scale !! scale_id = Some conversion -> scale_ok conversion.
Proof.
  intros H. apply scale_registered in H.
  destruct H as [[_ ->]|[[_ ->]|[_ ->]]];
    apply scale_okb_sound; vm_compute; reflexivity.
Qed.

(** ** The converter as a floor lookup *)

Section Lookup.

Variable g : float.

Lemma filter_qualifies_all t :
  Forall (fun e => fle (decimal e) g) t ->
  List.filter (fun e => (decimal e <=? g)%float) t = t.
Proof.
  induction 1 as [|e t He _ IH]; cbn; [reflexivity |].
  unfold fle in He. rewrite He, IH. reflexivity.
Qed.

Lemma max_from_dominates m vs :
  Forall (fun v => fle v m) vs -> max_from m vs = m.
Proof.
  induction 1 as [|v vs Hv _ IH]; cbn; [reflexivity |].
  rewrite (fle_not_flt _ _ Hv). exact IH.
Qed.

(** Below a qualifying threshold, every later entry qualifies too. *)
Lemma later_entries_qualify e t :
  strictly_decreasing (List.map decimal (e :: t)) ->
  fle (decimal e) g ->
  Forall (fun e' => fle (decimal e') g) t.
Proof.
  intros Hs He. cbn in Hs. apply StronglySorted_inv in Hs.
  destruct Hs as [_ Hs]. rewrite List.Forall_map in Hs.
  apply List.Forall_forall. intros e' Hin.
  apply (proj1 (List.Forall_forall _ _) Hs) in Hin.
  apply fle_trans with (decimal e); [apply flt_fle; exact Hin | exact He].
Qed.

Lemma gpa_floor t :
  strictly_decreasing (List.map decimal t) ->
  non_increasing (List.map grade t) ->
  _gpa g t = match floor_entry g t with
             | Some e => ret (grade e)
             | None => raise ValueError
             end.
Proof.
  unfold _gpa, floor_entry.
  induction t as [|a t IH]; intros Hd Hg; [reflexivity |].
  cbn [List.filter List.find].
  destruct (decimal a <=? g)%float eqn:E.
  - rewrite (filter_qualifies_all t (later_entries_qualify a t Hd E)).
    cbn in Hg |- *. apply StronglySorted_inv in Hg. destruct Hg as [_ Hg].
    rewrite (max_from_dominates _ _ Hg). reflexivity.
  - cbn in Hd, Hg. apply StronglySorted_inv in Hd, Hg.
    apply IH; tauto.
Qed.

Lemma floor_entry_best t e :
  strictly_decreasing (List.map decimal t) ->
  floor_entry g t = Some e -> best_entry g t e.
Proof.
  unfold floor_entry.
  induction t as [|a t IH]; intros Hd Hf; [discriminate |].
  cbn in Hf. destruct (decimal a <=? g)%float eqn:E.
  - injection Hf as <-. split; [left; reflexivity |]. split; [exact E |].
    intros e' [<- | Hin] _; [exact (fle_refl_l _ _ E) |].
    apply flt_fle. cbn in Hd. apply StronglySorted_inv in Hd.
    destruct Hd as [_ Hd]. rewrite List.Forall_map in Hd.
    exact (proj1 (List.Forall_forall _ _) Hd e' Hin).
  - cbn in Hd. apply StronglySorted_inv in Hd.
    destruct (IH (proj1 Hd) Hf) as [Hin [Hle Hbest]].
    split; [right; exact Hin |]. split; [exact Hle |].
    intros e' [<- | Hin'] Hq; [unfold fle in Hq; congruence |].
    exact (Hbest e' Hin' Hq).
Qed.

Lemma floor_entry_exists t :
  Exists (fun e => fle (decimal e) g) t -> exists e, floor_entry g t = Some e.
Proof.
  unfold floor_entry.
  induction 1 as [a t Ha | a t _ [e IH]]; cbn.
  - unfold fle in Ha. rewrite Ha. eauto.
  - destruct (decimal a <=? g)%float; eauto.
Qed.

Lemma floor_entry_none t :
  Forall (fun e => (decimal e <=? g)%float = false) t -> floor_entry g t = None.
Proof.
  unfold floor_entry. induction 1 as [|a t Ha _ IH]; cbn; [reflexivity |].
  rewrite Ha. exact IH.
Qed.

End Lookup.

Lemma same_threshold_same_entry t e1 e2 :
  strictly_decreasing (List.map decimal t) ->
  In e1 t -> In e2 t ->
  fle (decimal e1) (decimal e2) -> fle (decimal e2) (decimal e1) -> e1 = e2.
Proof.
  induction t as [|a t IH]; intros Hd H1 H2 H12 H21; [destruct H1 |].
  cbn in Hd. apply StronglySorted_inv in Hd. destruct Hd as [Hd Ha].
  rewrite List.Forall_map in Ha.
  pose proof (proj1 (List.Forall_forall _ _) Ha) as Hlt.
  destruct H1 as [<- | H1], H2 as [<- | H2].
  - reflexivity.
  - apply Hlt in H2. apply flt_not_fle in H2. unfold fle in H12. congruence.
  - apply Hlt in H1. apply flt_not_fle in H1. unfold fle in H21. congruence.
  - exact (IH Hd H1 H2 H12 H21).
Qed.

Lemma floor_entry_monotone t g1 g2 e1 :
  non_increasing (List.map grade t) ->
  Forall (fun e => fle (grade e) (grade e)) t ->
  fle g1 g2 ->
  floor_entry g1 t = Some e1 ->
  exists e2, floor_entry g2 t = Some e2 /\ fle (grade e1) (grade e2).
Proof.
  unfold floor_entry.
  induction t as [|a t IH]; intros Hg Hn H12 Hf; [discriminate |].
  cbn in Hg. apply StronglySorted_inv in Hg. destruct Hg as [Hg Ha].
  rewrite List.Forall_map in Ha.
  inversion Hn as [|? ? Hna Hnt]; subst.
  cbn in Hf |- *. destruct (decimal a <=? g1)%float eqn:E1.
  - injection Hf as <-.
    rewrite (fle_trans _ _ _ E1 H12). exists a. split; [reflexivity | exact Hna].
  - destruct (decimal a <=? g2)%float eqn:E2.
    + exists a. split; [reflexivity |].
      apply List.find_some in Hf. destruct Hf as [Hin _].
      exact (proj1 (List.Forall_forall _ _) Ha e1 Hin).
    + exact (IH Hg Hnt H12 Hf).
Qed.

(** A grade of at least zero meets the zero threshold. *)
Lemma domain_qualifies t g :
  scale_ok t -> fle 0 g -> Exists (fun e => fle (decimal e) g) t.
Proof.
  intros Hok H0. apply List.Exists_exists.
  destruct (proj1 (List.Exists_exists _ _) (threshold_zero t Hok)) as [e [Hin Hz]].
  exists e. split; [exact Hin |]. rewrite Hz. exact H0.
Qed.

Lemma gpa_of_best t g e :
  scale_ok t -> best_entry g t e -> _gpa g t = ret (grade e).
Proof.
  intros Hok Hbest.
  rewrite (gpa_floor g t (thresholds_decreasing t Hok) (grades_non_increasing t Hok)).
  destruct Hbest as [Hin [Hle Hmax]].
  destruct (floor_entry_exists g t) as [e' He'].
  { apply List.Exists_exists. exists e. split; assumption. }
  rewrite He'.
  destruct (floor_entry_best g t e' (thresholds_decreasing t Hok) He')
    as [Hin' [Hle' Hmax']].
  rewrite (same_threshold_same_entry t e e' (thresholds_decreasing t Hok)
             Hin Hin' (Hmax' e Hin Hle) (Hmax e' Hin' Hle')).
  reflexivity.
Qed.

Lemma best_entry_exists t g :
  scale_ok t -> fle 0 g -> exists e, best_entry g t e.
Proof.
  intros Hok H0.
  destruct (floor_entry_exists g t (domain_qualifies t g Hok H0)) as [e He].
  exists e. exact (floor_entry_best g t e (thresholds_decreasing t Hok) He).
Qed.

(** The first row of a table answers every grade that reaches its
    threshold. *)
Lemma gpa_top a t g :
  scale_ok (a :: t) -> fle (decimal a) g -> _gpa g (a :: t) = ret (grade a).
Proof.
  intros Hok Ha.
  rewrite (gpa_floor g _ (thresholds_decreasing _ Hok) (grades_non_increasing _ Hok)).
  unfold floor_entry. cbn. unfold fle in Ha. rewrite Ha. reflexivity.
Qed.

(** ** The claims about the converter *)

(** C1: for every registered scale and every decimal grade [g] of its
    domain ([0 <= g]), [_gpa] returns the [grade] value of the entry with
    the greatest threshold that is less than or equal to [g].  Such an
    entry exists, and the result is the stored value of a table row: a
    step-function lookup over the breakpoints, nothing is interpolated. *)
Theorem gpa_is_floor_lookup scale_id conversion g :
  scale !! scale_id = Some conversion ->
  fle 0 g ->
  (exists e, best_entry g conversion e) /\
  (forall e, best_entry g conversion e -> _gpa g conversion = ret (grade e)).
Proof.
  intros Hreg H0. apply scale_registered_ok in Hreg. split.
  - exact (best_entry_exists conversion g Hreg H0).
  - intros e. exact (gpa_of_best conversion g e Hreg).
Qed.

Lemma gpa_is_floor_lookup_witness :
  (exists e, best_entry 8.5 scale_3 e) /\
  (forall e, best_entry 8.5 scale_3 e -> _gpa 8.5 scale_3 = ret (grade e)).
Proof.
  apply (gpa_is_floor_lookup 3%Z scale_3 8.5%float); reflexivity.
Defined.

(** C2: for every registered scale the converter is monotonic
    non-decreasing: for grades [0 <= g1 <= g2] both conversions succeed
    and the first result is at most the second. *)
Theorem gpa_monotone scale_id conversion g1 g2 :
  scale !! scale_id = Some conversion ->
  fle 0 g1 ->
  fle g1 g2 ->
  exists v1 v2,
    _gpa g1 conversion = ret v1 /\ _gpa g2 conversion = ret v2 /\ fle v1 v2.
Proof.
  intros Hreg H0 H12. apply scale_registered_ok in Hreg.
  pose proof (thresholds_decreasing _ Hreg) as Hd.
  pose proof (grades_non_increasing _ Hreg) as Hg.
  destruct (floor_entry_exists g1 conversion (domain_qualifies _ g1 Hreg H0))
    as [e1 He1].
  destruct (floor_entry_monotone conversion g1 g2 e1 Hg
              (grades_numbers _ Hreg) H12 He1) as [e2 [He2 Hle]].
  exists (grade e1), (grade e2).
  rewrite !gpa_floor by assumption. rewrite He1, He2. auto.
Qed.

Lemma gpa_monotone_witness :
  exists v1 v2,
    _gpa 6.45 scale_2 = ret v1 /\ _gpa 9.65 scale_2 = ret v2 /\ fle v1 v2.
Proof.
  apply (gpa_monotone 2%Z scale_2 6.45%float 9.65%float); reflexivity.
Defined.

(** C3, as the code has it: under scale 1, grade 9 converts to 4.0 and
    grade 8.9 converts to 3.0, the value of the row with threshold 7,
    which is the greatest threshold not above 8.9. *)
Theorem scale_1_scenario :
  _gpa 9 scale_1 = ret 4%float /\
  _gpa 8.9 scale_1 = ret 3%float /\
  best_entry 8.9 scale_1 (Entry 7 3).
Proof.
  split; [reflexivity |]. split; [reflexivity |].
  apply (floor_entry_best 8.9%float scale_1 (Entry 7 3)); [| reflexivity].
  apply (thresholds_decreasing scale_1).
  apply scale_okb_sound. vm_compute. reflexivity.
Qed.

(** C3 as stated fails: grade 8.9 under scale 1 does not convert to 2. *)
Lemma scale_1_scenario_counterexample :
  ~ (_gpa 9 scale_1 = ret 4%float /\ _gpa 8.9 scale_1 = ret 2%float).
Proof.
  intros [_ H].
  assert (E : _gpa 8.9 scale_1 = ret 3%float) by reflexivity.
  rewrite E in H.
  apply (f_equal (fun r : result float =>
                    match r with inr v => (v =? 3)%float | inl _ => false end)) in H.
  vm_compute in H. discriminate.
Qed.

Lemma gpa_negative t g :
  scale_ok t -> flt g 0 -> _gpa g t = raise ValueError.
Proof.
  intros Hok Hneg.
  rewrite (gpa_floor g t (thresholds_decreasing t Hok) (grades_non_increasing t Hok)).
  rewrite floor_entry_none; [reflexivity |].
  apply List.Forall_forall. intros e Hin.
  pose proof (proj1 (List.Forall_forall _ _) (thresholds_non_negative t Hok) e Hin) as H0.
  destruct (decimal e <=? g)%float eqn:E; [| reflexivity].
  pose proof (fle_not_flt _ _ (fle_trans _ _ _ H0 E)) as Hno.
  unfold flt in Hneg. congruence.
Qed.

Lemma scale_registered_top scale_id conversion :
  scale !! scale_id = Some conversion ->
  exists a t,
    conversion = a :: t /\ fle (decimal a) 10 /\ grade a = 4%float /\
    Forall (fun e => fle (grade e) 4) conversion.
Proof.
  intros H.
  assert (Ht : top_okb conversion = true).
  { apply scale_registered in H.
    destruct H as [[_ ->]|[[_ ->]|[_ ->]]]; vm_compute; reflexivity. }
  destruct conversion as [|a t]; [discriminate |].
  unfold top_okb in Ht. rewrite !andb_true_iff in Ht.
  destruct Ht as [[H10 H4] Hall].
  exists a, t. split; [reflexivity |]. split; [exact H10 |].
  split; [apply FloatAxioms.Leibniz.eqb_spec; exact H4 |].
  apply List.Forall_forall. exact (proj1 (List.forallb_forall _ _) Hall).
Qed.

(** C4, as the code has it: for every registered scale, a negative grade
    [lo] makes [_gpa] raise, and the exception is the [ValueError] of
    [max] over an empty selection; a grade [hi] above 10 raises nothing
    and converts to the top value 4.0 of the table. *)
Theorem gpa_out_of_domain scale_id conversion lo hi :
  scale !! scale_id = Some conversion ->
  flt lo 0 ->
  flt 10 hi ->
  _gpa lo conversion = raise ValueError /\
  _gpa hi conversion = ret 4%float.
Proof.
  intros Hreg Hlo Hhi. pose proof (scale_registered_ok _ _ Hreg) as Hok.
  split; [exact (gpa_negative conversion lo Hok Hlo) |].
  destruct (scale_registered_top _ _ Hreg) as [a [t [-> [H10 [H4 _]]]]].
  rewrite <- H4. apply gpa_top; [exact Hok |].
  exact (fle_trans _ _ _ H10 (flt_fle _ _ Hhi)).
Qed.

Lemma gpa_out_of_domain_witness :
  _gpa (-1) scale_1 = raise ValueError /\ _gpa 15 scale_1 = ret 4%float.
Proof.
  apply (gpa_out_of_domain 1%Z scale_1 (-1)%float 15%float); reflexivity.
Defined.

(** C4 as stated fails: it is not the case that every grade outside
    0-10 makes the converter raise; grade 15 under scale 1 converts to
    4.0. *)
Lemma gpa_out_of_domain_counterexample :
  ~ (forall scale_id conversion g,
       scale !! scale_id = Some conversion ->
       flt g 0 \/ flt 10 g ->
       exists e, _gpa g conversion = raise e).
Proof.
  intros H.
  destruct (H 1%Z scale_1 15%float) as [e He];
    [reflexivity | right; reflexivity |].
  vm_compute in He. discriminate.
Qed.

(** C5: for every registered scale and every breakpoint of its table,
    converting the threshold itself returns exactly that breakpoint's
    value (the lower bound is inclusive); and grade 0 converts to 0 under
    each of the three scales. *)
Theorem gpa_at_threshold scale_id conversion :
  scale !! scale_id = Some conversion ->
  (forall e, In e conversion -> _gpa (decimal e) conversion = ret (grade e)) /\
  _gpa 0 conversion = ret 0%float.
Proof.
  intros Hreg. split.
  - intros e Hin. pose proof (scale_registered_ok _ _ Hreg) as Hok.
    apply gpa_of_best; [exact Hok |].
    pose proof (proj1 (List.Forall_forall _ _) (thresholds_non_negative _ Hok) e Hin) as H0.
    split; [exact Hin |]. split; [exact (fle_refl_r _ _ H0) |].
    intros e' _ Hle. exact Hle.
  - apply scale_registered in Hreg.
    destruct Hreg as [[_ ->]|[[_ ->]|[_ ->]]]; reflexivity.
Qed.

Lemma gpa_at_threshold_witness :
  (forall e, In e scale_2 -> _gpa (decimal e) scale_2 = ret (grade e)) /\
  _gpa 0 scale_2 = ret 0%float.
Proof. apply (gpa_at_threshold 2%Z scale_2). reflexivity. Defined.

(** C9: every registered table satisfies the scale invariant: its
    thresholds are strictly decreasing in listed order, it has a row with
    threshold 0 and that is its minimum threshold, and so for every grade
    [g >= 0] exactly one entry is the best one (greatest threshold that is
    at most [g]). *)
Theorem scale_invariant scale_id conversion :
  scale !! scale_id = Some conversion ->
  strictly_decreasing (List.map decimal conversion) /\
  (exists e0, In e0 conversion /\ decimal e0 = 0%float /\
              forall e, In e conversion -> fle (decimal e0) (decimal e)) /\
  (forall g, fle 0 g -> exists! e, best_entry g conversion e).
Proof.
  intros Hreg. apply scale_registered_ok in Hreg.
  pose proof (thresholds_decreasing _ Hreg) as Hd.
  split; [exact Hd |]. split.
  - destruct (proj1 (List.Exists_exists _ _) (threshold_zero _ Hreg)) as [e0 [Hin Hz]].
    exists e0. split; [exact Hin |]. split; [exact Hz |].
    intros e He. rewrite Hz.
    exact (proj1 (List.Forall_forall _ _) (thresholds_non_negative _ Hreg) e He).
  - intros g H0. destruct (best_entry_exists conversion g Hreg H0) as [e He].
    exists e. split; [exact He |].
    intros e' He'. destruct He as [Hin [Hle Hmax]], He' as [Hin' [Hle' Hmax']].
    exact (same_threshold_same_entry conversion e e' Hd Hin Hin'
             (Hmax' e Hin Hle) (Hmax e' Hin' Hle')).
Qed.

Lemma scale_invariant_witness :
  strictly_decreasing (List.map decimal scale_1) /\
  (exists e0, In e0 scale_1 /\ decimal e0 = 0%float /\
              forall e, In e scale_1 -> fle (decimal e0) (decimal e)) /\
  (forall g, fle 0 g -> exists! e, best_entry g scale_1 e).
Proof. apply (scale_invariant 1%Z scale_1). reflexivity. Defined.

(** C10: for every registered scale and every grade [g] strictly greater
    than the scale's greatest threshold, [_gpa] returns without raising,
    and the result is 4.0, the maximum value of the table; no upper bound
    is checked. *)
Theorem gpa_above_top scale_id conversion top g :
  scale !! scale_id = Some conversion ->
  In top conversion ->
  (forall e, In e conversion -> fle (decimal e) (decimal top)) ->
  flt (decimal top) g ->
  _gpa g conversion = ret 4%float /\
  Forall (fun e => fle (grade e) 4) conversion /\
  Exists (fun e => grade e = 4%float) conversion.
Proof.
  intros Hreg Hin Htop Habove. pose proof (scale_registered_ok _ _ Hreg) as Hok.
  destruct (scale_registered_top _ _ Hreg) as [a [t [-> [_ [H4 Hmax]]]]].
  split; [| split; [exact Hmax | left; exact H4]].
  rewrite <- H4. apply gpa_top; [exact Hok |].
  apply fle_trans with (decimal top); [| apply flt_fle; exact Habove].
  apply Htop. left. reflexivity.
Qed.

Lemma gpa_above_top_witness :
  _gpa 15 scale_3 = ret 4%float /\
  Forall (fun e => fle (grade e) 4) scale_3 /\
  Exists (fun e => grade e = 4%float) scale_3.
Proof.
  apply (gpa_above_top 3%Z scale_3 (Entry 9.3 4) 15%float).
  - reflexivity.
  - left. reflexivity.
  - intros e He. cbn in He.
    repeat (destruct He as [<- | He]; [reflexivity |]). destruct He.
  - reflexivity.
Defined.

(** ** The averages *)

Lemma series_apply_Forall2 (f : float -> result float) t vs :
  Forall2 (fun r v => f (Transcript.grade r) = ret v) t vs ->
  series_apply f (List.map Transcript.grade t) = ret vs.
Proof.
  induction 1 as [|r v t vs Hr _ IH]; cbn; [reflexivity |].
  rewrite Hr, IH. reflexivity.
Qed.

Lemma series_apply_domain conversion t :
  scale_ok conversion ->
  Forall (fun r => fle 0 (Transcript.grade r)) t ->
  exists gpas,
    Forall2 (fun r v => _gpa (Transcript.grade r) conversion = ret v) t gpas.
Proof.
  intros Hok. induction 1 as [|r t Hr _ [gpas IH]].
  - exists []. constructor.
  - destruct (best_entry_exists conversion _ Hok Hr) as [e He].
    exists (grade e :: gpas). constructor; [| exact IH].
    exact (gpa_of_best conversion _ e Hok He).
Qed.

Lemma sum_series_mul ws vs acc :
  List.fold_left PrimFloat.add (series_mul ws vs) acc
  = List.fold_left (fun a (p : float * float) => (a + fst p * snd p)%float) (List.combine ws vs) acc.
Proof.
  revert vs acc. induction ws as [|w ws IH]; intros [|v vs] acc; cbn;
    try reflexivity.
  apply IH.
Qed.

Lemma sum_weights ws vs acc :
  length ws = length vs ->
  List.fold_left PrimFloat.add ws acc
  = List.fold_left (fun a (p : float * float) => (a + fst p)%float) (List.combine ws vs) acc.
Proof.
  revert vs acc. induction ws as [|w ws IH]; intros [|v vs] acc; cbn;
    try reflexivity; try discriminate.
  intros H. apply IH. congruence.
Qed.

Lemma weighted_mean_code ws vs :
  length ws = length vs ->
  (py_sum (series_mul ws vs) / py_sum ws)%float
  = weighted_mean (List.combine ws vs).
Proof.
  intros H. unfold py_sum, weighted_mean.
  rewrite sum_series_mul, (sum_weights ws vs 0%float H). reflexivity.
Qed.



Lemma py_div_zero a b : (b =? 0)%float = true -> py_div a b = raise ZeroDivisionError.
Proof. unfold py_div. intros ->. reflexivity. Qed.

Lemma py_div_positive a b : flt 0 b -> py_div a b = ret (a / b)%float.
Proof. unfold py_div. intros H. rewrite (flt_not_eqb _ _ H). reflexivity. Qed.

Lemma scale_getitem_registered scale_id conversion :
  scale !! scale_id = Some conversion -> scale_getitem scale_id = ret conversion.
Proof. unfold scale_getitem. intros ->. reflexivity. Qed.

(** C6: for every registered scale and every transcript with positive
    total credits (so with at least one record), the number computed and
    printed by [get_gpa] is the credit-weighted mean
    [Σ(credits_i × convert(grade_i)) / Σ(credits_i)] of the converted
    grades, whenever the conversions [gpas] are those of [_gpa]; they
    exist when every grade is at least 0.  For the transcript of 3 credits
    at 9.5 and 1 credit at 5.0 under scale 1 the mean is
    (3×4.0 + 1×2)/4 = 3.5. *)
Theorem gpa_average_weighted_mean scale_id conversion t :
  scale !! scale_id = Some conversion ->
  flt 0 (py_sum (List.map Transcript.credits t)) ->
  (forall gpas,
     Forall2 (fun r v => _gpa (Transcript.grade r) conversion = ret v) t gpas ->
     let mean := weighted_mean (List.combine (List.map Transcript.credits t) gpas) in
     gpa_value scale_id t = ret mean /\
     get_gpa scale_id t = ret (String.append "GPA: " (format_2f mean))) /\
  (Forall (fun r => fle 0 (Transcript.grade r)) t ->
   exists gpas,
     Forall2 (fun r v => _gpa (Transcript.grade r) conversion = ret v) t gpas) /\
  gpa_value 1 example_transcript = ret ((3 * 4.0 + 1 * 2) / 4)%float /\
  gpa_value 1 example_transcript = ret 3.5%float /\
  get_gpa 1 example_transcript = ret "GPA: 3.50"%string.
Proof.
  intros Hreg Hpos. split; [| split].
  - intros gpas Hgpas mean.
    assert (Hv : gpa_value scale_id t = ret mean).
    { unfold gpa_value. rewrite (scale_getitem_registered _ _ Hreg). cbn.
      rewrite (series_apply_Forall2 _ t gpas Hgpas). cbn.
      rewrite (py_div_positive _ _ Hpos). unfold mean.
      rewrite weighted_mean_code; [reflexivity |].
      rewrite length_map. exact (List.Forall2_length Hgpas). }
    split; [exact Hv |]. unfold get_gpa. rewrite Hv. reflexivity.
  - intros Hdom.
    exact (series_apply_domain conversion t (scale_registered_ok _ _ Hreg) Hdom).
  - repeat split; vm_compute; reflexivity.
Qed.

Lemma gpa_average_weighted_mean_witness :
  (forall gpas,
     Forall2 (fun r v => _gpa (Transcript.grade r) scale_1 = ret v)
             example_transcript gpas ->
     let mean := weighted_mean
                   (List.combine (List.map Transcript.credits example_transcript) gpas) in
     gpa_value 1 example_transcript = ret mean /\
     get_gpa 1 example_transcript = ret (String.append "GPA: " (format_2f mean))) /\
  (Forall (fun r => fle 0 (Transcript.grade r)) example_transcript ->
   exists gpas,
     Forall2 (fun r v => _gpa (Transcript.grade r) scale_1 = ret v)
             example_transcript gpas) /\
  gpa_value 1 example_transcript = ret ((3 * 4.0 + 1 * 2) / 4)%float /\
  gpa_value 1 example_transcript = ret 3.5%float /\
  get_gpa 1 example_transcript = ret "GPA: 3.50"%string.
Proof.
  apply (gpa_average_weighted_mean 1%Z scale_1 example_transcript); reflexivity.
Defined.





(** C8, as the code has it: looking up an identifier that is not a key of
    [scale], such as 99, raises [KeyError], in [get_gpa] before anything
    else is computed; looking up a registered identifier (1, 2 or 3)
    returns that scale's table, ordered by strictly decreasing threshold.
    The lookup is a function of the identifier and the constant dict:
    nothing is written. *)
Theorem scale_lookup :
  (forall scale_id,
     match scale !! scale_id with
     | Some conversion =>
         scale_getitem scale_id = ret conversion /\
         strictly_decreasing (List.map decimal conversion)
     | None =>
         scale_getitem scale_id = raise KeyError /\
         forall t, get_gpa scale_id t = raise KeyError
     end) /\
  (forall scale_id,
     is_Some (scale !! scale_id) <-> scale_id = 1%Z \/ scale_id = 2%Z \/ scale_id = 3%Z) /\
  scale_getitem 99 = raise KeyError /\
  scale_getitem 1 = ret scale_1 /\
  scale_getitem 2 = ret scale_2 /\
  scale_getitem 3 = ret scale_3.
Proof.
  split; [| split; [| repeat split; reflexivity]].
  - intros scale_id. destruct (scale !! scale_id) as [conversion |] eqn:E.
    + split; [exact (scale_getitem_registered _ _ E) |].
      exact (thresholds_decreasing _ (scale_registered_ok _ _ E)).
    + assert (Hk : scale_getitem scale_id = raise KeyError)
        by (unfold scale_getitem; rewrite E; reflexivity).
      split; [exact Hk |]. intros t. unfold get_gpa, gpa_value.
      rewrite Hk. reflexivity.
  - intros scale_id. split.
    + intros [conversion H]. apply scale_registered in H. tauto.
    + intros [-> | [-> | ->]]; eexists; reflexivity.
Qed.

(** C8 as stated fails: the exception raised for scale id 99 is not an
    [UnknownScaleError]. *)
Lemma scale_lookup_counterexample :
  ~ (exists e, scale_getitem 99 = raise e /\ class_name e = "UnknownScaleError"%string).
Proof.
  intros [e [He Hname]]. vm_compute in He.
  assert (e = KeyError) as -> by congruence.
  vm_compute in Hname. discriminate.
Qed.


(** ** The converter on an arbitrary table *)

Lemma SFleb_total x y :
  SFleb x x = true -> SFleb y y = true -> SFltb x y = false -> SFleb y x = true.
Proof. unfold SFleb, SFltb. sf_order. Qed.

Lemma fle_total a b : fle a a -> fle b b -> (a <? b)%float = false -> fle b a.
Proof. unfold fle. rewrite !leb_spec, ltb_spec. apply SFleb_total. Qed.

(** The loop of [max] over numbers ends on an item that is at least the
    start and every item seen. *)
Lemma max_from_greatest l : forall m,
  fle m m ->
  Forall (fun x => fle x x) l ->
  (max_from m l = m \/ In (max_from m l) l) /\
  fle m (max_from m l) /\
  Forall (fun x => fle x (max_from m l)) l.
Proof.
  induction l as [|x l IH]; intros m Hm Hl; cbn.
  - split; [left; reflexivity |]. split; [exact Hm | constructor].
  - inversion Hl as [|? ? Hx Hl']; subst.
    destruct (m <? x)%float eqn:E.
    + destruct (IH x Hx Hl') as [Hin [Hge Hall]].
      split; [right; destruct Hin as [-> | Hin]; [left; reflexivity | right; exact Hin] |].
      split; [exact (fle_trans _ _ _ (flt_fle _ _ E) Hge) |].
      constructor; assumption.
    + destruct (IH m Hm Hl') as [Hin [Hge Hall]].
      split; [destruct Hin as [Hin | Hin]; [left; exact Hin | right; right; exact Hin] |].
      split; [exact Hge |].
      constructor; [| exact Hall].
      exact (fle_trans _ _ _ (fle_total m x Hm Hx E) Hge).
Qed.

Lemma py_max_greatest l v :
  Forall (fun x => fle x x) l ->
  py_max l = ret v ->
  In v l /\ Forall (fun x => fle x v) l.
Proof.
  destruct l as [|m l]; [discriminate |].
  intros Hl Hv. inversion Hl as [|? ? Hm Hl']; subst.
  assert (v = max_from m l) as -> by (cbn in Hv; unfold ret in Hv; congruence).
  destruct (max_from_greatest l m Hm Hl') as [Hin [Hge Hall]].
  split; [destruct Hin as [-> | Hin]; [left; reflexivity | right; exact Hin] |].
  constructor; assumption.
Qed.

Lemma py_max_raises l e : py_max l = raise e -> l = [] /\ e = ValueError.
Proof.
  destruct l; cbn; unfold raise, ret; intros H; [| discriminate].
  split; [reflexivity | congruence].
Qed.

(** X1: on any table whose values are numbers, sorted or not, with or
    without repeated thresholds, [_gpa] returns the greatest value among
    the rows whose threshold is at most the grade: the value of one such
    row, at least the value of every such row.  It raises only when no
    row qualifies, and then [ValueError]. *)
Theorem gpa_greatest_qualifying_value conversion g :
  Forall (fun e => fle (grade e) (grade e)) conversion ->
  match _gpa g conversion with
  | inr v =>
      (exists e, In e conversion /\ fle (decimal e) g /\ grade e = v) /\
      (forall e, In e conversion -> fle (decimal e) g -> fle (grade e) v)
  | inl exn =>
      exn = ValueError /\
      forall e, In e conversion -> (decimal e <=? g)%float = false
  end.
Proof.
  intros Hnum. unfold _gpa.
  set (sel := List.filter (fun e => (decimal e <=? g)%float) conversion).
  assert (Hsel : Forall (fun x => fle x x) (List.map grade sel)).
  { rewrite List.Forall_map. apply List.Forall_forall. intros e He.
    apply List.filter_In in He.
    exact (proj1 (List.Forall_forall _ _) Hnum e (proj1 He)). }
  destruct (py_max (List.map grade sel)) as [exn | v] eqn:E.
  - apply py_max_raises in E. destruct E as [E ->]. split; [reflexivity |].
    intros e He. destruct (decimal e <=? g)%float eqn:Eq; [| reflexivity].
    assert (Hin : In e sel) by (apply List.filter_In; split; assumption).
    apply (List.in_map grade) in Hin. rewrite E in Hin. destruct Hin.
  - destruct (py_max_greatest _ v Hsel E) as [Hin Hall]. split.
    + apply List.in_map_iff in Hin. destruct Hin as [e [Hv He]].
      apply List.filter_In in He. exists e. tauto.
    + intros e He Hq.
      assert (Hin' : In (grade e) (List.map grade sel)).
      { apply List.in_map. apply List.filter_In. split; assumption. }
      exact (proj1 (List.Forall_forall _ _) Hall _ Hin').
Qed.

Lemma gpa_greatest_qualifying_value_witness :
  match _gpa 6 [Entry 5 2; Entry 9 4; Entry 5 3; Entry 0 0] with
  | inr v =>
      (exists e, In e [Entry 5 2; Entry 9 4; Entry 5 3; Entry 0 0] /\
                 fle (decimal e) 6 /\ grade e = v) /\
      (forall e, In e [Entry 5 2; Entry 9 4; Entry 5 3; Entry 0 0] ->
                 fle (decimal e) 6 -> fle (grade e) v)
  | inl exn =>
      exn = ValueError /\
      forall e, In e [Entry 5 2; Entry 9 4; Entry 5 3; Entry 0 0] ->
                (decimal e <=? 6)%float = false
  end.
Proof.
  apply (gpa_greatest_qualifying_value
           [Entry 5 2; Entry 9 4; Entry 5 3; Entry 0 0] 6%float).
  repeat constructor.
Defined.

(** ** The converter on the registered tables *)

Lemma gpa_out_of_domain_raises t g :
  scale_ok t -> out_of_domain g -> _gpa g t = raise ValueError.
Proof.
  intros Hok Hout.
  rewrite (gpa_floor g t (thresholds_decreasing t Hok) (grades_non_increasing t Hok)).
  rewrite floor_entry_none; [reflexivity |].
  apply List.Forall_forall. intros e Hin.
  pose proof (proj1 (List.Forall_forall _ _) (thresholds_non_negative t Hok) e Hin) as H0.
  destruct (decimal e <=? g)%float eqn:E; [| reflexivity].
  pose proof (fle_trans _ _ _ H0 E) as H0g.
  unfold out_of_domain in Hout. unfold fle in H0g. congruence.
Qed.

Lemma gpa_in_domain_returns t g :
  scale_ok t -> fle 0 g ->
  exists e, In e t /\ _gpa g t = ret (grade e).
Proof.
  intros Hok H0. destruct (best_entry_exists t g Hok H0) as [e He].
  exists e. split; [exact (proj1 He) | exact (gpa_of_best t g e Hok He)].
Qed.

Lemma domain_cases g : fle 0 g \/ out_of_domain g.
Proof. unfold fle, out_of_domain. destruct (0 <=? g)%float; tauto. Qed.

(** X2: for every registered scale the grades [_gpa] converts are exactly
    those with [0 <= g]: it returns a value if and only if [0 <= g], and
    raises [ValueError] if and only if the grade is negative or not a
    number. *)
Theorem gpa_domain scale_id conversion g :
  scale !! scale_id = Some conversion ->
  ((exists v, _gpa g conversion = ret v) <-> fle 0 g) /\
  (_gpa g conversion = raise ValueError <-> out_of_domain g).
Proof.
  intros Hreg. apply scale_registered_ok in Hreg.
  destruct (domain_cases g) as [H0 | Hout].
  - destruct (gpa_in_domain_returns conversion g Hreg H0) as [e [_ He]].
    split; split; intros H.
    + exact H0.
    + eauto.
    + rewrite He in H. discriminate.
    + unfold fle, out_of_domain in *. congruence.
  - pose proof (gpa_out_of_domain_raises conversion g Hreg Hout) as He.
    split; split; intros H.
    + destruct H as [v Hv]. rewrite He in Hv. discriminate.
    + unfold fle, out_of_domain in *. congruence.
    + exact Hout.
    + exact He.
Qed.

Lemma gpa_domain_witness :
  ((exists v, _gpa nan scale_2 = ret v) <-> fle 0 nan) /\
  (_gpa nan scale_2 = raise ValueError <-> out_of_domain nan).
Proof. apply (gpa_domain 2%Z scale_2 nan). reflexivity. Defined.

Lemma scale_registered_values scale_id conversion :
  scale !! scale_id = Some conversion ->
  Forall (fun e => fle 0 (grade e) /\ fle (grade e) 4) conversion.
Proof.
  intros H.
  assert (Hb : List.forallb
                 (fun e => (0 <=? grade e)%float && (grade e <=? 4)%float)
                 conversion = true).
  { apply scale_registered in H.
    destruct H as [[_ ->]|[[_ ->]|[_ ->]]]; vm_compute; reflexivity. }
  apply List.Forall_forall. intros e He.
  apply (proj1 (List.forallb_forall _ _) Hb) in He.
  apply andb_prop in He. exact He.
Qed.

(** X3: for every registered scale and every grade [0 <= g], the
    converted value is one of the values listed in the table and lies
    between 0 and 4.0. *)
Theorem gpa_range scale_id conversion g :
  scale !! scale_id = Some conversion ->
  fle 0 g ->
  exists v,
    _gpa g conversion = ret v /\
    In v (List.map grade conversion) /\ fle 0 v /\ fle v 4.
Proof.
  intros Hreg H0.
  destruct (gpa_in_domain_returns conversion g (scale_registered_ok _ _ Hreg) H0)
    as [e [Hin He]].
  exists (grade e). split; [exact He |].
  split; [apply List.in_map; exact Hin |].
  exact (proj1 (List.Forall_forall _ _) (scale_registered_values _ _ Hreg) e Hin).
Qed.

Lemma gpa_range_witness :
  exists v,
    _gpa infinity scale_2 = ret v /\
    In v (List.map grade scale_2) /\ fle 0 v /\ fle v 4.
Proof. apply (gpa_range 2%Z scale_2 infinity); reflexivity. Defined.

Lemma floor_entry_skip g pre rest :
  Forall (fun e => (decimal e <=? g)%float = false) pre ->
  floor_entry g (pre ++ rest) = floor_entry g rest.
Proof.
  unfold floor_entry. induction 1 as [|a pre Ha _ IH]; cbn; [reflexivity |].
  rewrite Ha. exact IH.
Qed.

Lemma strictly_decreasing_prefix pre (hi : entry) rest :
  strictly_decreasing (List.map decimal (pre ++ hi :: rest)) ->
  Forall (fun e => fle (decimal hi) (decimal e)) pre.
Proof.
  induction pre as [|a pre IH]; cbn; intros Hs; [constructor |].
  apply StronglySorted_inv in Hs. destruct Hs as [Hs Ha].
  constructor; [| exact (IH Hs)].
  rewrite List.Forall_map in Ha. apply flt_fle.
  apply (proj1 (List.Forall_forall _ _) Ha). apply List.in_elt.
Qed.

(** X4: the conversion is constant on each bucket between two adjacent
    thresholds of a registered table, closed below and open above: when
    [lo] is the row listed right after [hi], every grade [g] with
    [decimal lo <= g < decimal hi] converts to the value of [lo]. *)
Theorem gpa_bucket scale_id pre hi lo post g :
  scale !! scale_id = Some (pre ++ hi :: lo :: post) ->
  fle (decimal lo) g ->
  flt g (decimal hi) ->
  _gpa g (pre ++ hi :: lo :: post) = ret (grade lo).
Proof.
  intros Hreg Hlo Hhi. apply scale_registered_ok in Hreg.
  pose proof (thresholds_decreasing _ Hreg) as Hd.
  rewrite (gpa_floor g _ Hd (grades_non_increasing _ Hreg)).
  assert (Hno : forall d, fle (decimal hi) d -> (d <=? g)%float = false).
  { intros d Hd'. destruct (d <=? g)%float eqn:E; [| reflexivity].
    pose proof (fle_not_flt _ _ (fle_trans _ _ _ Hd' E)) as Hc.
    unfold flt in Hhi. congruence. }
  rewrite floor_entry_skip.
  - unfold floor_entry. cbn.
    rewrite (Hno (decimal hi)).
    + unfold fle in Hlo. rewrite Hlo. reflexivity.
    + apply (fle_refl_r g). apply flt_fle. exact Hhi.
  - apply List.Forall_forall. intros e He. apply Hno.
    exact (proj1 (List.Forall_forall _ _) (strictly_decreasing_prefix _ _ _ Hd) e He).
Qed.

Lemma gpa_bucket_witness :
  _gpa 6.99 ([Entry 9 4] ++ Entry 7 3 :: Entry 5 2 :: [Entry 3 1; Entry 0 0])
  = ret (grade (Entry 5 2)).
Proof.
  apply (gpa_bucket 1%Z [Entry 9 4] (Entry 7 3) (Entry 5 2)
                    [Entry 3 1; Entry 0 0] 6.99%float); reflexivity.
Defined.

(** ** The outcomes of the two averages *)

Lemma py_div_nonzero a b : (b =? 0)%float = false -> py_div a b = ret (a / b)%float.
Proof. unfold py_div. intros ->. reflexivity. Qed.

Lemma grades_domain_cases (t : transcript) :
  Forall (fun r => fle 0 (Transcript.grade r)) t \/
  Exists (fun r => out_of_domain (Transcript.grade r)) t.
Proof.
  induction t as [|r t [IH | IH]].
  - left. constructor.
  - destruct (domain_cases (Transcript.grade r)) as [H | H].
    + left. constructor; assumption.
    + right. left. exact H.
  - right. right. exact IH.
Qed.

Lemma series_apply_out_of_domain conversion (t : transcript) :
  scale_ok conversion ->
  Exists (fun r => out_of_domain (Transcript.grade r)) t ->
  series_apply (fun g => _gpa g conversion) (List.map Transcript.grade t)
  = raise ValueError.
Proof.
  intros Hok. induction 1 as [r t Hr | r t _ IH]; cbn.
  - rewrite (gpa_out_of_domain_raises conversion _ Hok Hr). reflexivity.
  - destruct (domain_cases (Transcript.grade r)) as [H | H].
    + destruct (gpa_in_domain_returns conversion _ Hok H) as [e [_ He]].
      rewrite He, IH. reflexivity.
    + rewrite (gpa_out_of_domain_raises conversion _ Hok H). reflexivity.
Qed.

(** X6: for a registered scale, one record whose grade is negative or not
    a number makes [get_gpa] raise [ValueError], whatever the other
    records and whatever the credits, also when they sum to zero. *)
Theorem get_gpa_invalid_grade scale_id conversion t :
  scale !! scale_id = Some conversion ->
  Exists (fun r => out_of_domain (Transcript.grade r)) t ->
  get_gpa scale_id t = raise ValueError.
Proof.
  intros Hreg Hbad. unfold get_gpa, gpa_value.
  rewrite (scale_getitem_registered _ _ Hreg). cbn.
  rewrite (series_apply_out_of_domain conversion t (scale_registered_ok _ _ Hreg) Hbad).
  reflexivity.
Qed.

Lemma get_gpa_invalid_grade_witness :
  get_gpa 3 [Transcript.Row "A" "first" 0 8.5; Transcript.Row "B" "second" 0 (-1)]
  = raise ValueError.
Proof.
  apply (get_gpa_invalid_grade 3%Z scale_3); [reflexivity |].
  right. left. reflexivity.
Defined.

(** X7: [get_gpa] prints a result if and only if the scale id is
    registered, every grade is at least 0, and the credits do not sum to
    zero. *)
Theorem get_gpa_succeeds_iff scale_id t :
  (exists line, get_gpa scale_id t = ret line) <->
  (exists conversion, scale !! scale_id = Some conversion) /\
  Forall (fun r => fle 0 (Transcript.grade r)) t /\
  (py_sum (List.map Transcript.credits t) =? 0)%float = false.
Proof.
  split.
  - intros [line Hline].
    destruct (scale !! scale_id) as [conversion |] eqn:Hreg.
    + pose proof (scale_registered_ok _ _ Hreg) as Hok.
      split; [eauto |].
      unfold get_gpa, gpa_value in Hline.
      rewrite (scale_getitem_registered _ _ Hreg) in Hline. cbn in Hline.
      destruct (grades_domain_cases t) as [Hdom | Hbad].
      * split; [exact Hdom |].
        destruct (py_sum (List.map Transcript.credits t) =? 0)%float eqn:E;
          [| reflexivity].
        destruct (series_apply _ _) as [e | gpas]; cbn in Hline; [discriminate |].
        rewrite (py_div_zero _ _ E) in Hline. discriminate.
      * rewrite (series_apply_out_of_domain conversion t Hok Hbad) in Hline.
        discriminate.
    + unfold get_gpa, gpa_value, scale_getitem in Hline. rewrite Hreg in Hline.
      discriminate.
  - intros [[conversion Hreg] [Hdom Hsum]].
    destruct (series_apply_domain conversion t (scale_registered_ok _ _ Hreg) Hdom)
      as [gpas Hgpas].
    unfold get_gpa, gpa_value.
    rewrite (scale_getitem_registered _ _ Hreg). cbn.
    rewrite (series_apply_Forall2 _ t gpas Hgpas). cbn.
    rewrite (py_div_nonzero _ _ Hsum). cbn. eauto.
Qed.

(** ** The exported frame *)

Lemma translation_first translated i :
  translation translated i = inr (first_description translated i).
Proof.
  unfold translation, first_description.
  induction translated as [|[c s] rest IH]; [reflexivity |].
  cbn [List.map List.existsb List.filter List.find fst snd].
  rewrite (String.eqb_sym i c).
  destruct (String.eqb c i); [reflexivity | exact IH].
Qed.

Lemma translated_column_first translated codes :
  translated_column translated codes
  = inr (List.map (first_description translated) codes).
Proof.
  induction codes as [|i codes IH]; [reflexivity |].
  cbn. rewrite translation_first, IH. reflexivity.
Qed.

Lemma series_apply_length f s ys :
  series_apply f s = ret ys -> length ys = length s.
Proof.
  revert ys. induction s as [|x s IH]; cbn; intros ys H.
  - unfold ret in H. injection H as <-. reflexivity.
  - destruct (f x) as [e | y]; cbn in H; [discriminate |].
    destruct (series_apply f s) as [e | ys']; cbn in H; [discriminate |].
    unfold ret in H. injection H as <-. cbn. rewrite (IH ys' eq_refl). reflexivity.
Qed.

Lemma series_apply_each f s ys :
  series_apply f s = ret ys -> Forall2 (fun x y => f x = ret y) s ys.
Proof.
  revert ys. induction s as [|x s IH]; cbn; intros ys H.
  - unfold ret in H. injection H as <-. constructor.
  - destruct (f x) as [e | y] eqn:E; cbn in H; [discriminate |].
    destruct (series_apply f s) as [e | ys']; cbn in H; [discriminate |].
    unfold ret in H. injection H as <-. constructor; [exact E | exact (IH ys' eq_refl)].
Qed.

(** The frame written for a registered scale once the two columns are
    computed. *)
Lemma export_frame scale_id conversion translated t :
  scale !! scale_id = Some conversion ->
  export_translated_transcript scale_id translated t
  = match series_apply (fun g => _gpa g conversion)
                       (List.map Transcript.grade t) with
    | inl e => inl (Converter e)
    | inr gpas =>
        inr (with_columns t
               (List.map (fun r => first_description translated (Transcript.code r)) t)
               gpas)
    end.
Proof.
  intros Hreg. unfold export_translated_transcript.
  rewrite (scale_getitem_registered _ _ Hreg).
  rewrite translated_column_first, List.map_map. reflexivity.
Qed.

Lemma export_unregistered scale_id translated t :
  scale !! scale_id = None ->
  export_translated_transcript scale_id translated t = inl (Converter KeyError).
Proof.
  intros Hreg. unfold export_translated_transcript, scale_getitem.
  rewrite Hreg. reflexivity.
Qed.

Lemma with_columns_rows (t : transcript) (d : Transcript.row -> string) gpas :
  length gpas = length t ->
  let rows := with_columns t (List.map d t) gpas in
  List.map Exported.code rows = List.map Transcript.code t /\
  List.map Exported.credits rows = List.map Transcript.credits t /\
  List.map Exported.grade rows = List.map Transcript.grade t /\
  List.map Exported.subject rows = List.map Transcript.subject t /\
  List.map Exported.translated rows = List.map d t /\
  List.map Exported.gpa rows = gpas.
Proof.
  revert gpas. induction t as [|r t IH]; intros [|v gpas] Hlen; cbn in *;
    try discriminate; [repeat split |].
  injection Hlen as Hlen. destruct (IH gpas Hlen) as (H1 & H2 & H3 & H4 & H5 & H6).
  repeat split; f_equal; assumption.
Qed.

(** What a successful export returns: the frame of the lemma above, with
    a [gpa] column as long as the transcript. *)
Lemma export_returns scale_id translated t rows :
  export_translated_transcript scale_id translated t = inr rows ->
  exists conversion gpas,
    scale !! scale_id = Some conversion /\
    series_apply (fun g => _gpa g conversion) (List.map Transcript.grade t)
    = ret gpas /\
    length gpas = length t /\
    rows = with_columns t
             (List.map (fun r => first_description translated (Transcript.code r)) t)
             gpas.
Proof.
  intros H. destruct (scale !! scale_id) as [conversion |] eqn:Hreg.
  - rewrite (export_frame _ _ _ _ Hreg) in H.
    destruct (series_apply _ _) as [e | gpas] eqn:E; [discriminate |].
    exists conversion, gpas. split; [reflexivity |]. split; [exact E |].
    split; [| congruence].
    rewrite (series_apply_length _ _ _ E). apply length_map.
  - rewrite (export_unregistered _ _ _ Hreg) in H. discriminate.
Qed.

(** X8: a successful export keeps the transcript as it is: the exported
    frame has one row per record, in the same order, with the record's
    code, credits, grade and subject unchanged. *)
Theorem export_keeps_records scale_id translated t rows :
  export_translated_transcript scale_id translated t = inr rows ->
  length rows = length t /\
  List.map Exported.code rows = List.map Transcript.code t /\
  List.map Exported.credits rows = List.map Transcript.credits t /\
  List.map Exported.grade rows = List.map Transcript.grade t /\
  List.map Exported.subject rows = List.map Transcript.subject t.
Proof.
  intros H. destruct (export_returns _ _ _ _ H) as (conversion & gpas & _ & _ & Hlen & ->).
  destruct (with_columns_rows t (fun r => first_description translated (Transcript.code r)) gpas Hlen) as (H1 & H2 & H3 & H4 & _ & _).
  split; [| tauto].
  rewrite <- (length_map Exported.code), H1. apply length_map.
Qed.

Lemma export_keeps_records_witness :
  let rows := [Exported.Row "A" 3 9.5 4 "first" "";
               Exported.Row "B" 1 5 2 "second" "Second"] in
  length rows = length example_transcript /\
  List.map Exported.code rows = List.map Transcript.code example_transcript /\
  List.map Exported.credits rows = List.map Transcript.credits example_transcript /\
  List.map Exported.grade rows = List.map Transcript.grade example_transcript /\
  List.map Exported.subject rows = List.map Transcript.subject example_transcript.
Proof.
  apply (export_keeps_records 1%Z [("B", "Second"); ("B", "Other")]%string
                              example_transcript).
  reflexivity.
Defined.

(** X9: the translation sheet never makes the export fail, whether it
    lacks codes or repeats them: no export raises [IndexError], and in
    the exported frame each record is given the description of the first
    row of the sheet with its code, or the empty string when the sheet
    has no such row. *)
Theorem export_translations scale_id translated t :
  export_translated_transcript scale_id translated t <> inl IndexError /\
  forall rows,
    export_translated_transcript scale_id translated t = inr rows ->
    List.map Exported.translated rows
    = List.map (fun r => first_description translated (Transcript.code r)) t.
Proof.
  split.
  - destruct (scale !! scale_id) as [conversion |] eqn:Hreg.
    + rewrite (export_frame _ _ _ _ Hreg).
      destruct (series_apply _ _); discriminate.
    + rewrite (export_unregistered _ _ _ Hreg). discriminate.
  - intros rows H.
    destruct (export_returns _ _ _ _ H) as (conversion & gpas & _ & _ & Hlen & ->).
    destruct (with_columns_rows t (fun r => first_description translated (Transcript.code r)) gpas Hlen) as (_ & _ & _ & _ & H5 & _).
    exact H5.
Qed.



Lemma Forall2_map_same {A B C : Type} (P : B -> C -> Prop)
  (f : A -> B) (g : A -> C) (l : list A) :
  Forall2 P (List.map f l) (List.map g l) -> Forall (fun x => P (f x) (g x)) l.
Proof.
  induction l as [|x l IH]; cbn; intros H; constructor;
    inversion H; subst; auto.
Qed.

(** X11: the [gpa] column of the exported frame holds, for each record,
    the conversion of its grade, and it is the column [get_gpa] averages:
    the number [get_gpa] computes for the same scale and transcript is
    [sum(credits * gpa) / sum(credits)] over the exported frame. *)
Theorem export_gpa_column scale_id conversion translated t rows :
  scale !! scale_id = Some conversion ->
  export_translated_transcript scale_id translated t = inr rows ->
  Forall (fun x => _gpa (Exported.grade x) conversion = ret (Exported.gpa x)) rows /\
  gpa_value scale_id t
  = py_div (py_sum (series_mul (List.map Exported.credits rows)
                               (List.map Exported.gpa rows)))
           (py_sum (List.map Exported.credits rows)).
Proof.
  intros Hreg H.
  destruct (export_returns _ _ _ _ H) as (conversion' & gpas & Hreg' & Hgpas & Hlen & ->).
  assert (conversion' = conversion) as -> by congruence.
  destruct (with_columns_rows t
              (fun r => first_description translated (Transcript.code r)) gpas Hlen)
    as (_ & H2 & H3 & _ & _ & H6).
  remember (with_columns t
              (List.map (fun r => first_description translated (Transcript.code r)) t)
              gpas) as rows eqn:Hrows.
  cbn zeta in H2, H3, H6.
  split.
  - pose proof (series_apply_each _ _ _ Hgpas) as Heach.
    rewrite <- H3, <- H6 in Heach.
    exact (Forall2_map_same _ _ _ rows Heach).
  - unfold gpa_value. rewrite (scale_getitem_registered _ _ Hreg). cbn.
    rewrite Hgpas. cbn. rewrite H2, H6. reflexivity.
Qed.

Lemma export_gpa_column_witness :
  let rows := [Exported.Row "A" 3 9.5 4 "first" "";
               Exported.Row "B" 1 5 2 "second" "Second"] in
  Forall (fun x => _gpa (Exported.grade x) scale_1 = ret (Exported.gpa x)) rows /\
  gpa_value 1 example_transcript
  = py_div (py_sum (series_mul (List.map Exported.credits rows)
                               (List.map Exported.gpa rows)))
           (py_sum (List.map Exported.credits rows)).
Proof.
  apply (export_gpa_column 1%Z scale_1 [("B", "Second"); ("B", "Other")]%string
                           example_transcript); reflexivity.
Defined.
